(** * The incremental product gallery of [app/routes/app.products.tsx]

    A shallow embedding of the route module: the [loader] that queries the
    catalogue and the [ProductsPage] component whose three effects seed the
    list from the loader data, append the pages delivered by the fetcher and
    bind an intersection observer to the sentinel element.

    The component is modelled at the granularity of the browser's event
    loop: an event (new loader data, the fetcher settling with data, an
    intersection notification) runs its handler, React renders, and the
    effects whose dependencies changed run before the next event is
    delivered.  The fetcher of react-router and the IntersectionObserver are
    not part of the route module; they are the sources of events.  The
    module handles no error itself: what the loader throws is caught by the
    router, which shows the error boundary of the route in the place of the
    component. *)

From Stdlib Require Import List String Bool Arith Lia.
Import ListNotations.
Open Scope string_scope.
Open Scope list_scope.

Set Implicit Arguments.

(** ** JavaScript values used by the module *)

(** A field declared [x?: string | null]: absent, [null], or a string. *)
Inductive Nullish : Type :=
| undefined
| null
| str (s : string).

(** Truthiness of such a value: [undefined], [null] and the empty string are
    falsy. *)
Definition truthy (v : Nullish) : bool :=
  match v with
  | str s => negb (s =? "")
  | _ => false
  end.

(** [v ?? null], of type [string | null]; [None] stands for [null]. *)
Definition orNull (v : Nullish) : option string :=
  match v with
  | str s => Some s
  | _ => None
  end.

(** [a === b] on values of type [string | null]. *)
Definition strictEq (a b : option string) : bool :=
  match a, b with
  | None, None => true
  | Some x, Some y => x =? y
  | _, _ => false
  end.

(** [s || undefined] on a value of type [string | null]; [None] stands for
    [null] in the argument and for [undefined] in the result. *)
Definition orUndefined (s : option string) : option string :=
  match s with
  | Some x => if x =? "" then None else Some x
  | None => None
  end.

(** ** The types of the module *)

Definition PAGE_SIZE : nat := 9.

Module Image.
Record t := mk { url : string; altText : option string }.
End Image.

Module FeaturedMedia.
Record t := mk { preview : option (option Image.t); image : option Image.t }.
End FeaturedMedia.

Module ProductSummary.
Record t := mk {
  id : string;
  title : string;
  status : string;
  featuredMedia : option FeaturedMedia.t
}.
End ProductSummary.

Module ProductEdge.
Record t := mk { cursor : string; node : ProductSummary.t }.
End ProductEdge.

Module PageInfo.
Record t := mk { hasNextPage : bool; endCursor : Nullish }.
End PageInfo.

Module ProductConnection.
Record t := mk { edges : list ProductEdge.t; pageInfo : PageInfo.t }.
End ProductConnection.

Module GraphQLError.
Record t := mk { message : string }.
End GraphQLError.

Module ProductsQuery.
Record data_t := mkData { products : option ProductConnection.t }.
Record t := mk { data : option data_t; errors : option (list GraphQLError.t) }.
End ProductsQuery.

Module LoaderData.
Record t := mk { products : ProductConnection.t }.
End LoaderData.

(** ** The loader *)

(** The variables of the GraphQL query. *)
Module Variables.
Record t := mk { first : nat; after : option string }.
End Variables.

(** Lines 53-62: [after] is the search parameter ([null] when the URL has
    none) or [undefined]; it is passed on only when truthy. *)
Definition loader_variables (searchParam : option string) : Variables.t :=
  let after := orUndefined searchParam in
  match after with
  | Some a => if negb (a =? "") then Variables.mk PAGE_SIZE (Some a)
              else Variables.mk PAGE_SIZE None
  | None => Variables.mk PAGE_SIZE None
  end.

(** A [Response] thrown by the loader. *)
Module Thrown.
Record t := mk { body : string; status : nat }.
End Thrown.

(** [payload.data?.products] (line 109). *)
Definition payload_products (payload : ProductsQuery.t) : option ProductConnection.t :=
  match ProductsQuery.data payload with
  | Some d => ProductsQuery.products d
  | None => None
  end.

(** Lines 100-117: what the loader does with the payload of the query. *)
Definition loader_result (payload : ProductsQuery.t) : Thrown.t + LoaderData.t :=
  match ProductsQuery.errors payload with
  | Some (e :: _) => inl (Thrown.mk (GraphQLError.message e) 500)
  | _ =>
    match payload_products payload with
    | Some products => inr (LoaderData.mk products)
    | None => inl (Thrown.mk "No data returned from Shopify" 502)
    end
  end.

(** ** The fetcher, as the component sees it *)

Inductive FetcherState : Type := idle | loading.

Definition isIdle (s : FetcherState) : bool :=
  match s with idle => true | loading => false end.

Module Fetcher.
Record t := mk { state : FetcherState; data : option LoaderData.t }.
End Fetcher.

(** A call [fetcher.load(`?after=${encodeURIComponent(after)}`)], recorded by
    the cursor it asks for. *)
Inductive FetcherCall : Type :=
| fetcher_load (after : string).

(** ** The component *)

(** What the callback handed to [new IntersectionObserver] captured from the
    render in which the third effect ran. *)
Module Observer.
Record t := mk {
  fetcherState : FetcherState;
  hasNextPage : bool;
  endCursor : Nullish
}.
End Observer.

Record State := mkState {
  edges : list ProductEdge.t;            (* useState(products.edges) *)
  pageInfo : PageInfo.t;                 (* useState(products.pageInfo) *)
  lastAppendedCursor : option string;    (* useRef<string | null>(null) *)
  fetcher : Fetcher.t;                   (* useFetcher<LoaderData>() *)
  observer : option Observer.t           (* the observer bound to the sentinel *)
}.

(** First effect (lines 128-132), run when [products] changes. *)
Definition seed (products : ProductConnection.t) (st : State) : State :=
  mkState
    (ProductConnection.edges products)
    (ProductConnection.pageInfo products)
    (orNull (PageInfo.endCursor (ProductConnection.pageInfo products)))
    (fetcher st)
    (observer st).

(** Second effect (lines 134-144), run when [fetcher.data] changes. *)
Definition merge (st : State) : State :=
  match option_map LoaderData.products (Fetcher.data (fetcher st)) with
  | None => st
  | Some incoming =>
    let nextCursor := orNull (PageInfo.endCursor (ProductConnection.pageInfo incoming)) in
    if strictEq (lastAppendedCursor st) nextCursor then st
    else
      mkState
        (edges st ++ ProductConnection.edges incoming)
        (ProductConnection.pageInfo incoming)
        nextCursor
        (fetcher st)
        (observer st)
  end.

(** The test of line 147: [!pageInfo.hasNextPage || !pageInfo.endCursor]. *)
Definition exhausted (p : PageInfo.t) : bool :=
  negb (PageInfo.hasNextPage p) || negb (truthy (PageInfo.endCursor p)).

(** Third effect (lines 146-179), run when [fetcher], [pageInfo.hasNextPage]
    or [pageInfo.endCursor] changes: the previous observer is disconnected
    by the cleanup and a new one is bound unless the list is exhausted.
    Running it again with unchanged dependencies binds the same closure, so
    it is run at every commit. *)
Definition bind (st : State) : State :=
  mkState (edges st) (pageInfo st) (lastAppendedCursor st) (fetcher st)
    (if exhausted (pageInfo st)
     then None
     else Some (Observer.mk (Fetcher.state (fetcher st))
                            (PageInfo.hasNextPage (pageInfo st))
                            (PageInfo.endCursor (pageInfo st)))).

(** The observer's callback (lines 152-164) on its first entry. *)
Definition callback (o : Observer.t) (isIntersecting : bool) : option FetcherCall :=
  if isIntersecting
     && isIdle (Observer.fetcherState o)
     && Observer.hasNextPage o
     && truthy (Observer.endCursor o)
  then
    match Observer.endCursor o with
    | str c => Some (fetcher_load c)
    | _ => None
    end
  else None.

(** [fetcher.load] puts the fetcher in the loading state; its data stays. *)
Definition withFetcher (f : Fetcher.t) (st : State) : State :=
  mkState (edges st) (pageInfo st) (lastAppendedCursor st) f (observer st).

(** The events delivered to the component. *)
Inductive Event : Type :=
| LoaderDataChanged (products : ProductConnection.t)
    (* useLoaderData returns a new [products] *)
| FetcherSettled (d : LoaderData.t)
    (* the fetch resolved: [fetcher.data] is [d], [fetcher.state] is idle *)
| SentinelIntersection (isIntersecting : bool).
    (* the bound observer, if any, is notified *)

(** One turn of the event loop: the handler, then the commit.  The second
    component lists the fetcher calls made during the turn. *)
Definition step (st : State) (ev : Event) : State * list FetcherCall :=
  match ev with
  | LoaderDataChanged products => (bind (seed products st), [])
  | FetcherSettled d =>
    (bind (merge (withFetcher (Fetcher.mk idle (Some d)) st)), [])
  | SentinelIntersection isIntersecting =>
    match observer st with
    | None => (st, [])
    | Some o =>
      match callback o isIntersecting with
      | Some call =>
        (bind (withFetcher (Fetcher.mk loading (Fetcher.data (fetcher st))) st),
         [call])
      | None => (st, [])
      end
    end
  end.

Definition next (st : State) (ev : Event) : State := fst (step st ev).

(** A sequence of turns, with all the fetcher calls in order. *)
Fixpoint run (st : State) (evs : list Event) : State * list FetcherCall :=
  match evs with
  | [] => (st, [])
  | ev :: evs' =>
    let (st1, calls1) := step st ev in
    let (st2, calls2) := run st1 evs' in
    (st2, calls1 ++ calls2)
  end.

(** The hooks at the first render (lines 121-126): the state is initialised
    from the loader data, the ref is [null], the fetcher is idle and has no
    data, no observer exists yet. *)
Definition initial (products : ProductConnection.t) : State :=
  mkState (ProductConnection.edges products)
          (ProductConnection.pageInfo products)
          None
          (Fetcher.mk idle None)
          None.

(** Mounting the component with the loader data [products]: the first
    render, then the three effects in order. *)
Definition mount (products : ProductConnection.t) : State :=
  bind (merge (seed products (initial products))).

(** The states the component can be in between two events. *)
Inductive reachable : State -> Prop :=
| reachable_mount : forall products, reachable (mount products)
| reachable_step : forall st ev, reachable st -> reachable (next st ev).

(** What the route shows: the component in some state, or the error
    boundary of the route with the [Response] the loader threw.  The module
    has no [catch] and no error boundary of its own, and the component's
    state is gone with the component. *)
Inductive Route : Type :=
| component (st : State)
| errorBoundary (r : Thrown.t).

(** The end of a fetch whose query was answered by [payload]: what the
    loader returns settles the fetcher, what it throws (lines 102-113)
    leaves the component. *)
Definition deliver (st : State) (payload : ProductsQuery.t) : Route :=
  match loader_result payload with
  | inl r => errorBoundary r
  | inr d => component (next st (FetcherSettled d))
  end.

(** ** The payload as received *)

(** [response.json()] is cast to [ProductsQuery] without a check (line
    100): a connection as received may lack what the type declares. *)
Module RawConnection.
Record t := mk {
  edges : option (list ProductEdge.t);
  pageInfo : option PageInfo.t
}.
End RawConnection.

Module RawQuery.
Record data_t := mkData { products : option RawConnection.t }.
Record t := mk { data : option data_t; errors : option (list GraphQLError.t) }.
End RawQuery.

(** The connection as received when it has what the type declares. *)
Definition rawConnection (c : ProductConnection.t) : RawConnection.t :=
  RawConnection.mk (Some (ProductConnection.edges c))
                   (Some (ProductConnection.pageInfo c)).

Definition rawQuery (payload : ProductsQuery.t) : RawQuery.t :=
  RawQuery.mk
    (option_map
       (fun d => RawQuery.mkData
                   (option_map rawConnection (ProductsQuery.products d)))
       (ProductsQuery.data payload))
    (ProductsQuery.errors payload).

(** Lines 100-117 on the payload as received: the only tests are those of
    lines 102 and 111. *)
Definition loader_received (payload : RawQuery.t) : Thrown.t + RawConnection.t :=
  match RawQuery.errors payload with
  | Some (e :: _) => inl (Thrown.mk (GraphQLError.message e) 500)
  | _ =>
    match RawQuery.data payload with
    | Some d =>
      match RawQuery.products d with
      | Some products => inr products
      | None => inl (Thrown.mk "No data returned from Shopify" 502)
      end
    | None => inl (Thrown.mk "No data returned from Shopify" 502)
    end
  end.

(** How a run of the second effect on a connection as received ends. *)
Inductive Merged : Type :=
| returned (st : State)
    (* the effect returned and the next render succeeds *)
| effectThrows
    (* line 138 reads [endCursor] of an absent [pageInfo]: nothing was
       written *)
| updaterThrows (written : PageInfo.t) (recorded : option string).
    (* lines 142 and 143 ran, with [setPageInfo(written)] and the ref set to
       [recorded]; the updater of line 141 spreads the absent [edges] and
       throws when React renders *)

(** Second effect (lines 134-144) on [fetcher.data?.products] as received. *)
Definition merge_received (st : State) (incoming : option RawConnection.t) : Merged :=
  match incoming with
  | None => returned st
  | Some inc =>
    match RawConnection.pageInfo inc with
    | None => effectThrows
    | Some p =>
      let nextCursor := orNull (PageInfo.endCursor p) in
      if strictEq (lastAppendedCursor st) nextCursor then returned st
      else
        match RawConnection.edges inc with
        | Some es =>
          returned (mkState (edges st ++ es) p nextCursor
                            (fetcher st) (observer st))
        | None => updaterThrows p nextCursor
        end
    end
  end.

(** ** Vocabulary of the properties *)

(** The identifiers of the rendered items, in order ([key={product.id}]). *)
Definition ids (es : list ProductEdge.t) : list string :=
  map (fun e => ProductSummary.id (ProductEdge.node e)) es.

(** The test of line 139, negated: the page [d] is not taken for a repeated
    delivery and is appended. *)
Definition passesGuard (st : State) (d : LoaderData.t) : bool :=
  negb (strictEq (lastAppendedCursor st)
          (orNull (PageInfo.endCursor
                     (ProductConnection.pageInfo (LoaderData.products d))))).

(** A sequence of turns without new loader data in which every page the
    fetcher delivers passes that test. *)
Fixpoint merges_succeed (st : State) (evs : list Event) : bool :=
  match evs with
  | [] => true
  | ev :: evs' =>
    match ev with
    | LoaderDataChanged _ => false
    | FetcherSettled d => passesGuard st d
    | _ => true
    end && merges_succeed (next st ev) evs'
  end.

(** The items of the pages delivered during a sequence of turns, in order of
    arrival. *)
Definition arrived (evs : list Event) : list ProductEdge.t :=
  flat_map (fun ev =>
    match ev with
    | FetcherSettled d => ProductConnection.edges (LoaderData.products d)
    | _ => []
    end) evs.

(** The component would ask for the next page if the sentinel came into
    view. *)
Definition eligible (st : State) : bool :=
  isIdle (Fetcher.state (fetcher st))
  && PageInfo.hasNextPage (pageInfo st)
  && truthy (PageInfo.endCursor (pageInfo st)).

(** Events that end a fetch. *)
Definition settles (ev : Event) : bool :=
  match ev with
  | FetcherSettled _ => true
  | _ => false
  end.

(** Events that bring neither loader data nor a page. *)
Definition quiet (ev : Event) : bool :=
  match ev with
  | SentinelIntersection _ => true
  | _ => false
  end.

(** The fetcher delivers a page only for a fetch that was asked for: in a
    sequence of turns, every page arrives while the fetcher is loading. *)
Fixpoint deliveries_asked (st : State) (evs : list Event) : bool :=
  match evs with
  | [] => true
  | ev :: evs' =>
    match ev with
    | FetcherSettled _ => negb (isIdle (Fetcher.state (fetcher st)))
    | _ => true
    end && deliveries_asked (next st ev) evs'
  end.

(** The pagination state proper: the list, the page information and the
    cursor last appended. *)
Definition pagination (st : State) : list ProductEdge.t * PageInfo.t * option string :=
  (edges st, pageInfo st, lastAppendedCursor st).

(** ** Sample data *)

Definition product (i : string) : ProductEdge.t :=
  ProductEdge.mk i (ProductSummary.mk i i "ACTIVE" None).

Definition page (items : list string) (more : bool) (c : Nullish) : ProductConnection.t :=
  ProductConnection.mk (map product items) (PageInfo.mk more c).

Definition fetched (items : list string) (more : bool) (c : Nullish) : LoaderData.t :=
  LoaderData.mk (page items more c).

(** ** The rendered page *)

(** What a card shows for the product's media: the [<img>] element with its
    [src] and [alt], or the text "No image". *)
Inductive Picture : Type :=
| img (src alt : string)
| noImage.

(** Lines 202-204:
    [product.featuredMedia?.image ?? product.featuredMedia?.preview?.image]. *)
Definition mediaImage (product : ProductSummary.t) : option Image.t :=
  match ProductSummary.featuredMedia product with
  | Some m =>
    match FeaturedMedia.image m with
    | Some i => Some i
    | None =>
      match FeaturedMedia.preview m with
      | Some p => p
      | None => None
      end
    end
  | None => None
  end.

(** Lines 226-238: the image when [mediaImage?.url] is truthy, with
    [mediaImage.altText ?? product.title] as its alternative text. *)
Definition picture (product : ProductSummary.t) : Picture :=
  match mediaImage product with
  | Some i =>
    if negb (Image.url i =? "")
    then img (Image.url i)
             (match Image.altText i with
              | Some a => a
              | None => ProductSummary.title product
              end)
    else noImage
  | None => noImage
  end.

Module Card.
Record t := mk {
  key : string;
  picture : Picture;
  statusText : string;
  titleText : string
}.
End Card.

(** The section of the page: the notice that the store has no active
    product, or the grid of cards. *)
Inductive Gallery : Type :=
| emptyNotice
| grid (cards : list Card.t).

Module View.
Record t := mk { gallery : Gallery; loadingNotice : bool }.
End View.

Section Render.

(** [String.prototype.toLowerCase], which the module applies to the status
    of a product. *)
Variable toLowerCase : string -> string.

(** Lines 201-246: the card of an edge. *)
Definition card (e : ProductEdge.t) : Card.t :=
  let product := ProductEdge.node e in
  Card.mk (ProductSummary.id product)
          (picture product)
          (toLowerCase (ProductSummary.status product))
          (ProductSummary.title product).

(** Lines 181-258: the notice when [edges.length === 0], the grid otherwise,
    and the loading notice when [fetcher.state !== "idle"]. *)
Definition render (st : State) : View.t :=
  View.mk
    (match edges st with
     | [] => emptyNotice
     | _ :: _ => grid (map card (edges st))
     end)
    (negb (isIdle (Fetcher.state (fetcher st)))).

End Render.

(** ** Vocabulary of the further properties *)

(** The end cursors an event hands to the component. *)
Definition offered (ev : Event) : list Nullish :=
  match ev with
  | LoaderDataChanged products =>
    [PageInfo.endCursor (ProductConnection.pageInfo products)]
  | FetcherSettled d =>
    [PageInfo.endCursor (ProductConnection.pageInfo (LoaderData.products d))]
  | _ => []
  end.

(** Events other than new loader data. *)
Definition keepsLoaderData (ev : Event) : bool :=
  match ev with
  | LoaderDataChanged _ => false
  | _ => true
  end.

(** The payload carries no GraphQL error: [payload.errors?.length] is
    falsy. *)
Definition noErrors (payload : ProductsQuery.t) : bool :=
  match ProductsQuery.errors payload with
  | Some (_ :: _) => false
  | _ => true
  end.

(** ** Basic facts *)

Lemma strictEq_refl (a : option string) : strictEq a a = true.
Proof.
  destruct a as [x|]; simpl; [apply String.eqb_refl | reflexivity].
Qed.

Lemma strictEq_true (a b : option string) : strictEq a b = true <-> a = b.
Proof.
  destruct a as [x|], b as [y|]; simpl; split; intros H;
    try discriminate; try reflexivity.
  - apply String.eqb_eq in H. now subst.
  - injection H as ->. apply String.eqb_refl.
Qed.

Lemma truthy_str (v : Nullish) :
  truthy v = true -> exists c, v = str c /\ c <> "".
Proof.
  destruct v as [| |s]; simpl; try discriminate.
  intros H. exists s. split; [reflexivity|].
  intros ->. discriminate.
Qed.

Lemma truthy_orNull (v : Nullish) : orNull v = None -> truthy v = false.
Proof. destruct v; simpl; [reflexivity | reflexivity | discriminate]. Qed.

(** The third effect touches nothing but the observer. *)
Lemma pagination_bind (st : State) : pagination (bind st) = pagination st.
Proof. reflexivity. Qed.

Lemma fetcher_bind (st : State) : fetcher (bind st) = fetcher st.
Proof. reflexivity. Qed.

Lemma bind_bind (st : State) : bind (bind st) = bind st.
Proof. reflexivity. Qed.

(** Between two events the bound observer is the one the third effect would
    bind from the current render: the closure is never stale. *)
Lemma reachable_bound (st : State) : reachable st -> bind st = st.
Proof.
  induction 1 as [products | st ev _ IH].
  - unfold mount. apply bind_bind.
  - unfold next. destruct ev as [products | d | b]; simpl; try apply bind_bind.
    destruct (observer st) as [o|]; simpl; [|exact IH].
    destruct (callback o b); simpl; [apply bind_bind | exact IH].
Qed.

Lemma reachable_observer (st : State) :
  reachable st ->
  observer st =
    if exhausted (pageInfo st)
    then None
    else Some (Observer.mk (Fetcher.state (fetcher st))
                           (PageInfo.hasNextPage (pageInfo st))
                           (PageInfo.endCursor (pageInfo st))).
Proof.
  intros H. apply reachable_bound in H.
  rewrite <- H at 1. reflexivity.
Qed.

(** A notification of the sentinel changes nothing but the fetcher's state
    and the observer. *)
Lemma pagination_sentinel (st : State) (b : bool) :
  pagination (next st (SentinelIntersection b)) = pagination st.
Proof.
  unfold next. simpl. destruct (observer st) as [o|]; [|reflexivity].
  destruct (callback o b); reflexivity.
Qed.

(** What a delivered page does to the pagination state. *)
Lemma pagination_settled (st : State) (d : LoaderData.t) :
  pagination (next st (FetcherSettled d)) =
    if passesGuard st d
    then (edges st ++ ProductConnection.edges (LoaderData.products d),
          ProductConnection.pageInfo (LoaderData.products d),
          orNull (PageInfo.endCursor
                    (ProductConnection.pageInfo (LoaderData.products d))))
    else pagination st.
Proof.
  unfold next, passesGuard. simpl. unfold merge. simpl.
  destruct (strictEq _ _); reflexivity.
Qed.

Lemma fetcher_settled (st : State) (d : LoaderData.t) :
  fetcher (next st (FetcherSettled d)) = Fetcher.mk idle (Some d).
Proof.
  unfold next. simpl. unfold merge. simpl.
  destruct (strictEq _ _); reflexivity.
Qed.

Lemma run_cons (st : State) (ev : Event) (evs : list Event) :
  run st (ev :: evs) =
    (fst (run (next st ev) evs), snd (step st ev) ++ snd (run (next st ev) evs)).
Proof.
  unfold next. simpl. destruct (step st ev) as [st1 calls1]. simpl.
  destruct (run st1 evs); reflexivity.
Qed.

(** The list after a sequence of turns in which every delivered page was
    appended. *)
Lemma edges_merges_succeed (evs : list Event) :
  forall st, merges_succeed st evs = true ->
    edges (fst (run st evs)) = edges st ++ arrived evs.
Proof.
  induction evs as [|ev evs IH]; intros st H.
  - simpl. now rewrite app_nil_r.
  - rewrite run_cons. simpl fst.
    simpl in H. apply andb_true_iff in H as [Hev Hevs].
    rewrite (IH _ Hevs).
    destruct ev as [products | d | b]; try discriminate.
    + change (edges (next st (FetcherSettled d)))
        with (fst (fst (pagination (next st (FetcherSettled d))))).
      rewrite pagination_settled, Hev. simpl. now rewrite <- app_assoc.
    + change (edges (next st (SentinelIntersection b)))
        with (fst (fst (pagination (next st (SentinelIntersection b))))).
      now rewrite pagination_sentinel.
Qed.

(** What a notification of the sentinel does between two events. *)
Lemma step_sentinel (st : State) (b : bool) :
  reachable st ->
  step st (SentinelIntersection b) =
    if b && eligible st
    then match PageInfo.endCursor (pageInfo st) with
         | str c =>
           (bind (withFetcher (Fetcher.mk loading (Fetcher.data (fetcher st))) st),
            [fetcher_load c])
         | _ => (st, [])
         end
    else (st, []).
Proof.
  intros H. unfold step. rewrite (reachable_observer H).
  unfold eligible, exhausted, callback. simpl.
  destruct (PageInfo.hasNextPage (pageInfo st));
    destruct (PageInfo.endCursor (pageInfo st)) as [| |c]; simpl;
    try (destruct b, (isIdle (Fetcher.state (fetcher st))); reflexivity).
  destruct (c =? "") eqn:E; simpl;
    destruct b, (isIdle (Fetcher.state (fetcher st))); simpl;
    rewrite ?E; reflexivity.
Qed.

Lemma isIdle_true (s : FetcherState) : isIdle s = true <-> s = idle.
Proof. destruct s; simpl; split; congruence. Qed.

Lemma eligible_inv (st : State) :
  eligible st = true ->
  Fetcher.state (fetcher st) = idle
  /\ PageInfo.hasNextPage (pageInfo st) = true
  /\ exists c, PageInfo.endCursor (pageInfo st) = str c /\ c <> "".
Proof.
  unfold eligible. intros H.
  apply andb_true_iff in H as [H Hc]. apply andb_true_iff in H as [Hi Hm].
  split; [now apply isIdle_true|]. split; [exact Hm|].
  now apply truthy_str.
Qed.

Lemma exhausted_not_eligible (st : State) :
  exhausted (pageInfo st) = true -> eligible st = false.
Proof.
  unfold exhausted, eligible.
  destruct (PageInfo.hasNextPage (pageInfo st)),
           (truthy (PageInfo.endCursor (pageInfo st))),
           (isIdle (Fetcher.state (fetcher st))); simpl; congruence.
Qed.

(** A fetcher call is made only by a notification that the sentinel is in
    view, in an eligible state, and it leaves the fetcher loading. *)
Lemma call_inv (st : State) (ev : Event) (call : FetcherCall) :
  reachable st ->
  In call (snd (step st ev)) ->
  ev = SentinelIntersection true
  /\ eligible st = true
  /\ (exists c, PageInfo.endCursor (pageInfo st) = str c
                /\ snd (step st ev) = [fetcher_load c])
  /\ Fetcher.state (fetcher (next st ev)) = loading.
Proof.
  intros R Hin. destruct ev as [products | d | b]; try contradiction.
  unfold next. rewrite (step_sentinel b R) in *.
  destruct b; simpl in *; try contradiction.
  destruct (eligible st) eqn:E; simpl in *; try contradiction.
  destruct (eligible_inv _ E) as (_ & _ & c & Hc & _).
  rewrite Hc in *. simpl. repeat split. exists c. now split.
Qed.

(** While the fetcher is loading, notifications of the sentinel do nothing. *)
Lemma loading_sentinel (st : State) (b : bool) :
  reachable st ->
  Fetcher.state (fetcher st) = loading ->
  step st (SentinelIntersection b) = (st, []).
Proof.
  intros R L. rewrite (step_sentinel b R). unfold eligible. rewrite L. simpl.
  now rewrite andb_false_r.
Qed.

(** Fetcher calls never outnumber by more than one the events that end a
    fetch: no call is made while another is outstanding. *)
Lemma calls_bounded (evs : list Event) :
  forall st, reachable st ->
    List.length (snd (run st evs))
    <= (if isIdle (Fetcher.state (fetcher st)) then 1 else 0)
       + List.length (filter settles evs).
Proof.
  induction evs as [|ev evs IH]; intros st R.
  - simpl. lia.
  - rewrite run_cons. simpl snd. rewrite List.length_app.
    pose proof (IH _ (reachable_step ev R)) as B.
    destruct ev as [products | d | b].
    + simpl. exact B.
    + rewrite fetcher_settled in B. simpl in *. lia.
    + simpl filter. unfold next in *.
      rewrite (step_sentinel b R) in *.
      destruct (b && eligible st) eqn:E; [|exact B].
      apply andb_true_iff in E as [_ E].
      destruct (eligible_inv _ E) as (I & _ & c & Hc & _).
      rewrite Hc in *. rewrite I. simpl in *. lia.
Qed.

(** In an exhausted state, notifications of the sentinel make no fetcher
    call and leave the pagination state as it is. *)
Lemma exhausted_quiet (evs : list Event) :
  forall st, reachable st ->
    exhausted (pageInfo st) = true ->
    forallb quiet evs = true ->
    snd (run st evs) = []
    /\ pagination (fst (run st evs)) = pagination st
    /\ observer (fst (run st evs)) = None.
Proof.
  induction evs as [|ev evs IH]; intros st R X Q.
  - simpl. repeat split. now rewrite (reachable_observer R), X.
  - simpl in Q. apply andb_true_iff in Q as [Qev Q].
    rewrite run_cons. simpl fst. simpl snd.
    assert (E : snd (step st ev) = [] /\ pagination (next st ev) = pagination st).
    { destruct ev as [products | d | b]; try discriminate.
      unfold next. rewrite (step_sentinel b R).
        rewrite (exhausted_not_eligible _ X), andb_false_r. split; reflexivity. }
    destruct E as [E1 E2].
    assert (X' : exhausted (pageInfo (next st ev)) = true).
    { change (pageInfo (next st ev)) with (snd (fst (pagination (next st ev)))).
      now rewrite E2. }
    destruct (IH _ (reachable_step ev R) X' Q) as (C & P & O).
    rewrite E1, C, P, E2. repeat split. exact O.
Qed.

Lemma mount_seed (products : ProductConnection.t) :
  mount products = next (initial products) (LoaderDataChanged products).
Proof. reflexivity. Qed.

(** ** Appending pages *)

(** C8. After a seed and a sequence of turns in which every page delivered
    by the fetcher was appended, the list is the seed page's items followed
    by the items of the delivered pages, page after page in order of arrival
    and each page in the order the fetcher returned it. *)
Theorem order_preservation (st0 : State) (P : ProductConnection.t) (evs : list Event) :
  merges_succeed (next st0 (LoaderDataChanged P)) evs = true ->
  edges (fst (run (next st0 (LoaderDataChanged P)) evs))
  = ProductConnection.edges P ++ arrived evs.
Proof.
  intros H. now rewrite (edges_merges_succeed _ _ H).
Qed.

Lemma order_preservation_witness :
  let P := page ["a"; "b"] true (str "c1") in
  let evs := [FetcherSettled (fetched ["c"; "d"] true (str "c2"));
              SentinelIntersection true;
              FetcherSettled (fetched ["e"] false (str "c3"))] in
  merges_succeed (next (initial P) (LoaderDataChanged P)) evs = true /\
  edges (fst (run (next (initial P) (LoaderDataChanged P)) evs))
  = map product ["a"; "b"; "c"; "d"; "e"].
Proof.
  split; [reflexivity|].
  apply (order_preservation (initial (page ["a"; "b"] true (str "c1")))).
  reflexivity.
Defined.

(** C1, as the component behaves. After a seed and a sequence of turns in
    which every delivered page was appended, the list has no repeated
    identifier exactly when the seed page and the delivered pages, taken
    together, have none: pages are appended as delivered. *)
Theorem no_duplicates_iff_pages_distinct
    (st0 : State) (P : ProductConnection.t) (evs : list Event) :
  merges_succeed (next st0 (LoaderDataChanged P)) evs = true ->
  NoDup (ids (edges (fst (run (next st0 (LoaderDataChanged P)) evs))))
  <-> NoDup (ids (ProductConnection.edges P ++ arrived evs)).
Proof.
  intros H. rewrite (edges_merges_succeed _ _ H). reflexivity.
Qed.

Lemma no_duplicates_iff_pages_distinct_witness :
  let P := page ["a"] true (str "c1") in
  let evs := [FetcherSettled (fetched ["b"; "c"] true (str "c2"))] in
  merges_succeed (next (initial P) (LoaderDataChanged P)) evs = true /\
  (NoDup (ids (edges (fst (run (next (initial P) (LoaderDataChanged P)) evs))))
   <-> NoDup (ids (ProductConnection.edges P ++ arrived evs))).
Proof.
  split; [reflexivity|].
  apply no_duplicates_iff_pages_distinct. reflexivity.
Defined.

(** C1, as stated, fails: two pages with different end cursors that share the
    item [c] are both appended and [c] is listed twice. *)
Lemma shared_item_is_repeated :
  let st := mount (page ["a"] true (str "c1")) in
  let evs := [FetcherSettled (fetched ["b"; "c"] true (str "c2"));
              FetcherSettled (fetched ["c"; "d"] false (str "c3"))] in
  merges_succeed st evs = true /\
  ids (edges (fst (run st evs))) = ["a"; "b"; "c"; "c"; "d"] /\
  ~ NoDup (ids (edges (fst (run st evs)))).
Proof.
  split; [reflexivity|]. split; [reflexivity|].
  intros H. change (NoDup ["a"; "b"; "c"; "c"; "d"]) in H.
  apply NoDup_cons_iff in H as [_ H].
  apply NoDup_cons_iff in H as [_ H].
  apply NoDup_cons_iff in H as [H _].
  apply H. left. reflexivity.
Qed.

(** C2. A page whose end cursor is the cursor last appended (an absent end
    cursor counting as [null]) changes neither the list nor the page
    information nor the recorded cursor, makes no fetcher call and leaves
    the fetcher idle; so the page [c, d] delivered twice after the seed
    [a, b] is appended once. *)
Theorem duplicate_delivery_guard :
  (forall (st : State) (d : LoaderData.t),
     orNull (PageInfo.endCursor (ProductConnection.pageInfo (LoaderData.products d)))
       = lastAppendedCursor st ->
     pagination (next st (FetcherSettled d)) = pagination st
     /\ Fetcher.state (fetcher (next st (FetcherSettled d))) = idle
     /\ snd (step st (FetcherSettled d)) = [])
  /\ (forall st0 : State,
        let cd := fetched ["c"; "d"] true (str "c2") in
        let st := next st0 (LoaderDataChanged (page ["a"; "b"] true (str "c1"))) in
        edges (fst (run st [FetcherSettled cd; FetcherSettled cd]))
        = map product ["a"; "b"; "c"; "d"]).
Proof.
  split.
  - intros st d H. split; [|split].
    + rewrite pagination_settled. unfold passesGuard.
      rewrite H, strictEq_refl. reflexivity.
    + now rewrite fetcher_settled.
    + reflexivity.
  - intros st0. reflexivity.
Qed.

Lemma duplicate_delivery_guard_witness :
  let cd := fetched ["c"; "d"] true (str "c2") in
  let st := next (mount (page ["a"; "b"] true (str "c1"))) (FetcherSettled cd) in
  pagination (next st (FetcherSettled cd)) = pagination st.
Proof.
  apply (proj1 duplicate_delivery_guard). reflexivity.
Defined.

(** ** Seeding *)

(** C3, as the component behaves. Seeding with [P1] and then with [P2] gives
    the state that seeding with [P2] alone gives: the list, the page
    information and the recorded cursor are those of [P2] (an absent end
    cursor recorded as [null]), as after mounting on [P2], and nothing of
    [P1] is left.  The fetcher is not touched: a fetch in flight stays in
    flight. *)
Theorem reseed (st : State) (P1 P2 : ProductConnection.t) :
  let st' := next (next st (LoaderDataChanged P1)) (LoaderDataChanged P2) in
  st' = next st (LoaderDataChanged P2)
  /\ edges st' = ProductConnection.edges P2
  /\ pageInfo st' = ProductConnection.pageInfo P2
  /\ lastAppendedCursor st'
     = orNull (PageInfo.endCursor (ProductConnection.pageInfo P2))
  /\ pagination st' = pagination (mount P2)
  /\ fetcher st' = fetcher st.
Proof.
  repeat split.
Qed.

(** C3, as stated, fails: when a fetch is in flight the fetcher is still
    loading after the two seeds, while after mounting on the second page it
    is idle. *)
Lemma reseed_keeps_fetch_in_flight :
  let st := next (mount (page ["a"] true (str "c1"))) (SentinelIntersection true) in
  let P1 := page ["a"; "b"] true (str "c1") in
  let P2 := page ["c"; "d"] true (str "c2") in
  let st' := next (next st (LoaderDataChanged P1)) (LoaderDataChanged P2) in
  Fetcher.state (fetcher st') = loading
  /\ Fetcher.state (fetcher (mount P2)) = idle
  /\ st' <> mount P2.
Proof.
  split; [reflexivity|]. split; [reflexivity|].
  intros H. apply (f_equal (fun s => Fetcher.state (fetcher s))) in H.
  discriminate H.
Qed.

(** ** Asking for the next page *)

(** C4. Between two events, a fetcher call is made only while the fetcher is
    idle, the page information says there is a next page and its end cursor
    is a (non-empty) string, and the call leaves the fetcher loading; while
    it is loading, notifications of the sentinel do nothing.  So two
    notifications in a row make at most one call, exactly one in an eligible
    state, and over any sequence of events the calls exceed the events that
    end a fetch by at most one. *)
Theorem eligibility_gating (st : State) :
  reachable st ->
  (forall ev call, In call (snd (step st ev)) ->
     Fetcher.state (fetcher st) = idle
     /\ PageInfo.hasNextPage (pageInfo st) = true
     /\ (exists c, PageInfo.endCursor (pageInfo st) = str c /\ c <> ""
                   /\ snd (step st ev) = [fetcher_load c])
     /\ Fetcher.state (fetcher (next st ev)) = loading)
  /\ (forall b, Fetcher.state (fetcher st) = loading ->
        step st (SentinelIntersection b) = (st, []))
  /\ (forall b1 b2,
        List.length (snd (run st [SentinelIntersection b1; SentinelIntersection b2])) <= 1)
  /\ (eligible st = true ->
        exists c, PageInfo.endCursor (pageInfo st) = str c
          /\ snd (run st [SentinelIntersection true; SentinelIntersection true])
             = [fetcher_load c])
  /\ (forall evs,
        List.length (snd (run st evs))
        <= (if isIdle (Fetcher.state (fetcher st)) then 1 else 0)
           + List.length (filter settles evs)).
Proof.
  intros R. split; [|split; [|split; [|split]]].
  - intros ev call Hin.
    destruct (call_inv _ _ R Hin) as (_ & E & (c & Hc & Hs) & L).
    destruct (eligible_inv _ E) as (I & M & c' & Hc' & Hne).
    repeat split; try assumption.
    exists c'. split; [exact Hc'|]. split; [exact Hne|].
    rewrite Hs. congruence.
  - intros b. now apply loading_sentinel.
  - intros b1 b2.
    pose proof (calls_bounded [SentinelIntersection b1; SentinelIntersection b2] R) as B.
    simpl filter in B. simpl List.length in B at 2.
    destruct (isIdle (Fetcher.state (fetcher st))); lia.
  - intros E. destruct (eligible_inv _ E) as (_ & _ & c & Hc & _).
    exists c. split; [exact Hc|].
    pose proof (reachable_step (SentinelIntersection true) R) as R'.
    unfold next in R'.
    assert (S1 := step_sentinel true R). rewrite E, Hc in S1. cbn [andb] in S1.
    rewrite S1 in R'. cbn [fst] in R'.
    assert (S2 := loading_sentinel true R' eq_refl).
    cbn [run]. rewrite S1, S2. reflexivity.
  - intros evs. now apply calls_bounded.
Qed.

Lemma eligibility_gating_witness :
  let st := mount (page ["a"; "b"] true (str "c1")) in
  snd (run st [SentinelIntersection true; SentinelIntersection true])
  = [fetcher_load "c1"].
Proof.
  destruct (eligibility_gating (reachable_mount (page ["a"; "b"] true (str "c1"))))
    as (_ & _ & _ & H & _).
  destruct (H eq_refl) as (c & Hc & Hr).
  injection Hc as <-. exact Hr.
Defined.

(** C5, as the component behaves. Between two events, when the page
    information says there is no next page, or its end cursor is absent or
    [null], no observer is bound to the sentinel, and notifications of the
    sentinel leave the state as it is and make no fetcher call, however many
    there are.  When moreover no fetch is in flight, as after every
    delivered page, this lasts until new loader data arrives: over turns
    without new loader data in which pages arrive only for fetches that were
    asked for, nothing changes and no call is made. *)
Theorem exhaustion_stops_fetching (st : State) :
  reachable st ->
  PageInfo.hasNextPage (pageInfo st) = false
  \/ orNull (PageInfo.endCursor (pageInfo st)) = None ->
  observer st = None
  /\ (forall bs, run st (map SentinelIntersection bs) = (st, []))
  /\ (Fetcher.state (fetcher st) = idle ->
      forall evs,
        forallb keepsLoaderData evs = true ->
        deliveries_asked st evs = true ->
        run st evs = (st, []))
  /\ (forall st0 d,
        st = next st0 (FetcherSettled d) -> Fetcher.state (fetcher st) = idle).
Proof.
  intros R H.
  assert (X : exhausted (pageInfo st) = true).
  { unfold exhausted. destruct H as [H | H].
    - now rewrite H.
    - rewrite (truthy_orNull _ H). apply orb_true_r. }
  assert (S : forall b, step st (SentinelIntersection b) = (st, [])).
  { intros b.
    now rewrite (step_sentinel b R), (exhausted_not_eligible _ X), andb_false_r. }
  split; [|split; [|split]].
  - now destruct (exhausted_quiet [] R X eq_refl) as (_ & _ & O).
  - induction bs as [|b bs IH]; [reflexivity|].
    simpl map. cbn [run]. now rewrite S, IH.
  - intros I evs. induction evs as [|ev evs IH]; intros K D; [reflexivity|].
    simpl in K. apply andb_true_iff in K as [Kev K].
    simpl in D. apply andb_true_iff in D as [Dev D].
    destruct ev as [products | d | b].
    + discriminate.
    + rewrite I in Dev. discriminate.
    + unfold next in D. rewrite S in D. cbn [fst] in D.
      cbn [run]. now rewrite S, (IH K D).
  - intros st0 d ->. now rewrite fetcher_settled.
Qed.

Lemma exhaustion_stops_fetching_witness :
  let st := next (next (mount (page ["a"] true (str "c1")))
                       (SentinelIntersection true))
                 (FetcherSettled (fetched ["b"] false (str "c2"))) in
  observer st = None
  /\ run st (map SentinelIntersection [true; true; false; true]) = (st, [])
  /\ Fetcher.state (fetcher st) = idle.
Proof.
  assert (R : reachable (next (next (mount (page ["a"] true (str "c1")))
                                    (SentinelIntersection true))
                              (FetcherSettled (fetched ["b"] false (str "c2"))))).
  { do 2 apply reachable_step. apply reachable_mount. }
  destruct (exhaustion_stops_fetching R (or_introl eq_refl)) as (O & S & _ & I).
  split; [exact O|]. split; [exact (S [true; true; false; true])|].
  exact (I _ _ eq_refl).
Defined.

(** C5, as stated, fails: the fetch for the page after [c1] is in flight
    when new loader data [x] says there is no next page; no observer is
    bound, but the page [b] of that fetch is then appended and says there is
    a next page after [c2], and the next notification of the sentinel asks
    for it, without any new loader data. *)
Lemma exhausting_seed_is_reopened :
  let st := fst (run (mount (page ["a"] true (str "c1")))
                     [SentinelIntersection true;
                      LoaderDataChanged (page ["x"] false (str "k1"))]) in
  let evs := [FetcherSettled (fetched ["b"] true (str "c2"));
              SentinelIntersection true] in
  PageInfo.hasNextPage (pageInfo st) = false
  /\ observer st = None
  /\ forallb keepsLoaderData evs = true
  /\ deliveries_asked st evs = true
  /\ ids (edges (fst (run st evs))) = ["x"; "b"]
  /\ snd (run st evs) = [fetcher_load "c2"].
Proof.
  repeat split.
Qed.

(** ** Failures and stale pages *)

Lemma loader_result_errors (payload : ProductsQuery.t) (e : GraphQLError.t)
    (es : list GraphQLError.t) :
  ProductsQuery.errors payload = Some (e :: es) ->
  loader_result payload = inl (Thrown.mk (GraphQLError.message e) 500).
Proof. intros H. unfold loader_result. now rewrite H. Qed.

Lemma loader_result_noErrors (payload : ProductsQuery.t) :
  noErrors payload = true ->
  loader_result payload =
    match payload_products payload with
    | Some products => inr (LoaderData.mk products)
    | None => inl (Thrown.mk "No data returned from Shopify" 502)
    end.
Proof.
  unfold noErrors, loader_result.
  destruct (ProductsQuery.errors payload) as [[|e es]|];
    [reflexivity | discriminate | reflexivity].
Qed.

Lemma noErrors_false (payload : ProductsQuery.t) :
  noErrors payload = false ->
  exists e es, ProductsQuery.errors payload = Some (e :: es).
Proof.
  unfold noErrors.
  destruct (ProductsQuery.errors payload) as [[|e es]|]; try discriminate.
  intros _. now exists e, es.
Qed.

(** C6, as the module behaves. A fetch fails exactly when the payload
    carries an error or lacks [data.products]: the loader then throws a
    [Response] of status 500 or 502, which the module catches nowhere; the
    route shows its error boundary and the component is gone with its list,
    page information and recorded cursor, so that nothing is kept for a
    retry.  The component goes on exactly when the loader returns, in the
    state the delivered page leaves: after the seed [a] with cursor [c1],
    the fetch that returns [b] and no next page ends with the list
    [a, b]. *)
Theorem failed_fetch_ends_component :
  (forall (st : State) (payload : ProductsQuery.t),
     (exists r, deliver st payload = errorBoundary r)
     <-> noErrors payload = false \/ payload_products payload = None)
  /\ (forall (st : State) (payload : ProductsQuery.t) (r : Thrown.t),
        deliver st payload = errorBoundary r ->
        loader_result payload = inl r
        /\ (Thrown.status r = 500 \/ Thrown.status r = 502))
  /\ (forall (st st' : State) (payload : ProductsQuery.t),
        deliver st payload = component st' ->
        noErrors payload = true
        /\ exists P, payload_products payload = Some P
                     /\ st' = next st (FetcherSettled (LoaderData.mk P)))
  /\ (let st := next (mount (page ["a"] true (str "c1")))
                     (SentinelIntersection true) in
      let payload :=
        ProductsQuery.mk
          (Some (ProductsQuery.mkData (Some (page ["b"] false (str "c2")))))
          None in
      exists st',
        deliver st payload = component st'
        /\ edges st' = [product "a"; product "b"]
        /\ PageInfo.hasNextPage (pageInfo st') = false
        /\ Fetcher.state (fetcher st') = idle).
Proof.
  split; [|split; [|split]].
  - intros st payload. unfold deliver. destruct (noErrors payload) eqn:N.
    + rewrite (loader_result_noErrors _ N).
      destruct (payload_products payload) as [P|]; split.
      * intros [r H]. discriminate.
      * intros [H | H]; discriminate.
      * intros _. now right.
      * intros _. eexists. reflexivity.
    + destruct (noErrors_false _ N) as (e & es & E).
      rewrite (loader_result_errors _ E). split.
      * intros _. now left.
      * intros _. eexists. reflexivity.
  - intros st payload r. unfold deliver. destruct (noErrors payload) eqn:N.
    + rewrite (loader_result_noErrors _ N).
      destruct (payload_products payload) as [P|]; [discriminate|].
      intros H. injection H as <-. split; [reflexivity | now right].
    + destruct (noErrors_false _ N) as (e & es & E).
      rewrite (loader_result_errors _ E).
      intros H. injection H as <-. split; [reflexivity | now left].
  - intros st st' payload. unfold deliver. destruct (noErrors payload) eqn:N.
    + rewrite (loader_result_noErrors _ N).
      destruct (payload_products payload) as [P|]; [|discriminate].
      intros H. injection H as <-. split; [reflexivity|]. now exists P.
    + destruct (noErrors_false _ N) as (e & es & E).
      rewrite (loader_result_errors _ E). discriminate.
  - eexists. repeat split.
Qed.

Lemma failed_fetch_ends_component_witness :
  let st := next (mount (page ["a"] true (str "c1"))) (SentinelIntersection true) in
  let payload := ProductsQuery.mk (Some (ProductsQuery.mkData None)) None in
  loader_result payload = inl (Thrown.mk "No data returned from Shopify" 502).
Proof.
  destruct failed_fetch_ends_component as (_ & H & _).
  exact (proj1 (H (next (mount (page ["a"] true (str "c1")))
                        (SentinelIntersection true))
                  (ProductsQuery.mk (Some (ProductsQuery.mkData None)) None)
                  _ eq_refl)).
Defined.

(** C6, as stated, fails: after the seed [a] with cursor [c1], the fetch
    whose payload carries an error does not leave the component idle with
    the list [a]: the route shows the error boundary with the thrown
    [Response], and there is no state of the component to retry from. *)
Lemma failed_fetch_is_not_recovered :
  let st := next (mount (page ["a"] true (str "c1"))) (SentinelIntersection true) in
  let payload := ProductsQuery.mk None (Some [GraphQLError.mk "Throttled"]) in
  deliver st payload = errorBoundary (Thrown.mk "Throttled" 500)
  /\ forall st', deliver st payload <> component st'.
Proof.
  split; [reflexivity|]. intros st' H. discriminate H.
Qed.

(** C7, as the component behaves. When new loader data [P] arrives while a
    fetch is in flight, the page [d] that the fetch delivers afterwards is
    compared with the cursor recorded by the seed: it is dropped exactly
    when its end cursor is the end cursor of [P] (absent counting as
    [null]); any other page is appended to the items of [P], and its page
    information replaces that of [P]. *)
Theorem page_after_reseed (st : State) (P : ProductConnection.t) (d : LoaderData.t) :
  let seeded := next st (LoaderDataChanged P) in
  let st' := next seeded (FetcherSettled d) in
  let Q := LoaderData.products d in
  lastAppendedCursor seeded
    = orNull (PageInfo.endCursor (ProductConnection.pageInfo P))
  /\ if strictEq (orNull (PageInfo.endCursor (ProductConnection.pageInfo P)))
                 (orNull (PageInfo.endCursor (ProductConnection.pageInfo Q)))
     then pagination st' = pagination seeded
          /\ edges st' = ProductConnection.edges P
     else edges st' = ProductConnection.edges P ++ ProductConnection.edges Q
          /\ pageInfo st' = ProductConnection.pageInfo Q
          /\ lastAppendedCursor st'
             = orNull (PageInfo.endCursor (ProductConnection.pageInfo Q)).
Proof.
  intros seeded st' Q. split; [reflexivity|].
  pose proof (pagination_settled seeded d) as H.
  unfold passesGuard in H. fold Q in H. fold st' in H.
  change (lastAppendedCursor seeded)
    with (orNull (PageInfo.endCursor (ProductConnection.pageInfo P))) in H.
  destruct (strictEq _ _); simpl in H.
  - split; [exact H|].
    change (edges st') with (fst (fst (pagination st'))). now rewrite H.
  - unfold pagination in H. injection H as H1 H2 H3. repeat split; assumption.
Qed.

(** C7, as stated, fails: the fetch asked for the page after [c1]; the list
    is then seeded anew with [x], whose cursor is [k1]; the page [b] that
    the fetch delivers ends at [c2] and is appended to the fresh list. *)
Lemma stale_page_is_appended :
  let P := page ["x"] true (str "k1") in
  let r := run (mount (page ["a"] true (str "c1")))
               [SentinelIntersection true;
                LoaderDataChanged P;
                FetcherSettled (fetched ["b"] true (str "c2"))] in
  snd r = [fetcher_load "c1"]
  /\ edges (fst r) = [product "x"; product "b"]
  /\ pageInfo (fst r) = PageInfo.mk true (str "c2")
  /\ edges (fst r) <> ProductConnection.edges P.
Proof.
  repeat split. discriminate.
Qed.

(** C9, as the module behaves. A payload without [data] or without
    [data.products] makes the loader throw, so the page never reaches the
    second effect and the route shows its error boundary; and the effect
    changes nothing when the fetcher has no data.  What a connection that is
    present may lack is checked nowhere: the loader returns it as it is.
    Without [pageInfo] the effect throws before it writes anything.  Without
    [edges] the page is dropped, untouched, when it ends at the recorded
    cursor; otherwise the effect sets the page information and records the
    end cursor of the page, and the update of the list throws.  On a
    connection that has both, loader and effect do what they do on the
    declared types. *)
Theorem incomplete_page :
  (forall (st : State) (payload : ProductsQuery.t),
     payload_products payload = None ->
     exists r, loader_result payload = inl r /\ deliver st payload = errorBoundary r)
  /\ (forall st : State, Fetcher.data (fetcher st) = None -> merge st = st)
  /\ (forall (errs : option (list GraphQLError.t)) (inc : RawConnection.t),
        errs = None \/ errs = Some [] ->
        loader_received
          (RawQuery.mk (Some (RawQuery.mkData (Some inc))) errs) = inr inc)
  /\ (forall (st : State) (es : option (list ProductEdge.t)),
        merge_received st (Some (RawConnection.mk es None)) = effectThrows)
  /\ (forall (st : State) (p : PageInfo.t),
        merge_received st (Some (RawConnection.mk None (Some p)))
        = if strictEq (lastAppendedCursor st) (orNull (PageInfo.endCursor p))
          then returned st
          else updaterThrows p (orNull (PageInfo.endCursor p)))
  /\ (forall payload : ProductsQuery.t,
        loader_received (rawQuery payload)
        = match loader_result payload with
          | inl r => inl r
          | inr d => inr (rawConnection (LoaderData.products d))
          end)
  /\ (forall (st : State) (d : LoaderData.t),
        Fetcher.data (fetcher st) = Some d ->
        merge_received st (Some (rawConnection (LoaderData.products d)))
        = returned (merge st)).
Proof.
  split; [|split; [|split; [|split; [|split; [|split]]]]].
  - intros st payload H. unfold deliver, loader_result. rewrite H.
    destruct (ProductsQuery.errors payload) as [[|e es]|];
      eexists; split; reflexivity.
  - intros st H. unfold merge. now rewrite H.
  - intros errs inc [-> | ->]; reflexivity.
  - intros st es. reflexivity.
  - intros st p. unfold merge_received. cbn [RawConnection.pageInfo RawConnection.edges].
    destruct (strictEq _ _); reflexivity.
  - intros payload. unfold loader_received, loader_result, payload_products, rawQuery.
    cbn [RawQuery.errors RawQuery.data].
    destruct (ProductsQuery.errors payload) as [[|e es]|]; try reflexivity;
      destruct (ProductsQuery.data payload) as [d|]; try reflexivity;
      cbn [option_map RawQuery.products];
      destruct (ProductsQuery.products d); reflexivity.
  - intros st d H. unfold merge_received, merge, rawConnection. rewrite H.
    cbn [option_map RawConnection.pageInfo RawConnection.edges].
    destruct (strictEq _ _); reflexivity.
Qed.

Lemma incomplete_page_witness :
  let st := next (mount (page ["a"] true (str "c1"))) (SentinelIntersection true) in
  let payload := ProductsQuery.mk (Some (ProductsQuery.mkData None)) None in
  exists r, loader_result payload = inl r /\ deliver st payload = errorBoundary r.
Proof.
  destruct incomplete_page as [H _].
  exact (H (next (mount (page ["a"] true (str "c1"))) (SentinelIntersection true))
           (ProductsQuery.mk (Some (ProductsQuery.mkData None)) None)
           eq_refl).
Defined.

(** C9, as stated, fails: a page that lacks its [edges] is no failed fetch
    and is merged in part.  The loader returns it; the second effect, on the
    list seeded with [a] and the cursor [c1], takes the page information of
    the page and records its end cursor [c2] in the place of [c1], and the
    update of the list throws. *)
Lemma page_without_edges_is_merged_in_part :
  let st := next (mount (page ["a"] true (str "c1"))) (SentinelIntersection true) in
  let inc := RawConnection.mk None (Some (PageInfo.mk true (str "c2"))) in
  let payload := RawQuery.mk (Some (RawQuery.mkData (Some inc))) None in
  loader_received payload = inr inc
  /\ lastAppendedCursor st = Some "c1"
  /\ merge_received st (Some inc)
     = updaterThrows (PageInfo.mk true (str "c2")) (Some "c2")
  /\ merge_received st (Some inc) <> returned st.
Proof.
  split; [reflexivity|]. split; [reflexivity|]. split; [reflexivity|].
  discriminate.
Qed.

(** C10. An empty end cursor counts as no cursor: the third effect binds no
    observer for it, as for [null]; the callback asks for nothing with
    either; between two events a state with the empty cursor has no
    observer and no event makes a fetcher call; and the loader passes no
    [after] variable for an empty search parameter, as for an absent one. *)
Theorem empty_cursor_is_exhaustion :
  (forall st : State,
     reachable st ->
     PageInfo.endCursor (pageInfo st) = str "" ->
     observer st = None
     /\ (forall ev, snd (step st ev) = [])
     /\ (forall bs, run st (map SentinelIntersection bs) = (st, [])))
  /\ (forall es more last f o,
        observer (bind (mkState es (PageInfo.mk more (str "")) last f o)) = None
        /\ observer (bind (mkState es (PageInfo.mk more null) last f o)) = None)
  /\ (forall fs more b,
        callback (Observer.mk fs more (str "")) b = None
        /\ callback (Observer.mk fs more null) b = None)
  /\ loader_variables (Some "") = Variables.mk PAGE_SIZE None
  /\ loader_variables None = Variables.mk PAGE_SIZE None.
Proof.
  split; [|split; [|split; [|split]]].
  - intros st R H.
    assert (X : exhausted (pageInfo st) = true).
    { unfold exhausted. rewrite H. apply orb_true_r. }
    split; [|split].
    + now destruct (exhausted_quiet [] R X eq_refl) as (_ & _ & O).
    + intros ev. destruct ev as [products | d | b]; try reflexivity.
      rewrite (step_sentinel b R), (exhausted_not_eligible _ X), andb_false_r.
      reflexivity.
    + induction bs as [|b bs IH]; [reflexivity|].
      simpl map. cbn [run].
      rewrite (step_sentinel b R), (exhausted_not_eligible _ X), andb_false_r.
      now rewrite IH.
  - intros es more last f o. unfold bind, exhausted. simpl.
    rewrite !orb_true_r. split; reflexivity.
  - intros fs more b. unfold callback. simpl.
    rewrite !andb_false_r. split; reflexivity.
  - reflexivity.
  - reflexivity.
Qed.

Lemma empty_cursor_is_exhaustion_witness :
  let st := mount (page ["a"] true (str "")) in
  observer st = None
  /\ run st (map SentinelIntersection [true; true]) = (st, []).
Proof.
  destruct empty_cursor_is_exhaustion as [H _].
  destruct (H (mount (page ["a"] true (str ""))) (reachable_mount _) eq_refl)
    as (O & _ & S).
  split; [exact O | exact (S [true; true])].
Defined.

(** ** Further properties of the component *)

Lemma reachable_cursor (st : State) :
  reachable st ->
  lastAppendedCursor st = orNull (PageInfo.endCursor (pageInfo st)).
Proof.
  induction 1 as [products | st ev _ IH].
  - reflexivity.
  - change (snd (pagination (next st ev))
            = orNull (PageInfo.endCursor (snd (fst (pagination (next st ev)))))).
    destruct ev as [products | d | b].
    + reflexivity.
    + rewrite pagination_settled.
      destruct (passesGuard st d); [reflexivity | exact IH].
    + rewrite pagination_sentinel. exact IH.
Qed.

(** X1. Between two events the cursor recorded in the ref is the end cursor
    of the page information in the state (absent counting as [null]): the
    two are set together by the first effect and by the second, and by
    nothing else. *)
Theorem recorded_cursor_is_end_cursor (st : State) :
  reachable st ->
  lastAppendedCursor st = orNull (PageInfo.endCursor (pageInfo st)).
Proof.
  intros R. now apply reachable_cursor.
Qed.

Lemma recorded_cursor_is_end_cursor_witness :
  let st := fst (run (mount (page ["a"] true (str "c1")))
                     [SentinelIntersection true;
                      FetcherSettled (fetched ["b"] true undefined)]) in
  lastAppendedCursor st = None /\ PageInfo.endCursor (pageInfo st) = undefined.
Proof.
  split; [|reflexivity].
  apply (@recorded_cursor_is_end_cursor
           (next (next (mount (page ["a"] true (str "c1")))
                       (SentinelIntersection true))
                 (FetcherSettled (fetched ["b"] true undefined)))).
  do 2 apply reachable_step. apply reachable_mount.
Defined.

Lemma in_run_cons (st : State) (ev : Event) (evs : list Event) (call : FetcherCall) :
  In call (snd (run st (ev :: evs))) ->
  In call (snd (step st ev)) \/ In call (snd (run (next st ev) evs)).
Proof.
  rewrite run_cons. cbn [snd]. apply in_app_or.
Qed.

Lemma pageInfo_next (st : State) (ev : Event) :
  In (PageInfo.endCursor (pageInfo (next st ev)))
     (PageInfo.endCursor (pageInfo st) :: offered ev).
Proof.
  change (pageInfo (next st ev)) with (snd (fst (pagination (next st ev)))).
  destruct ev as [products | d | b].
  - right. left. reflexivity.
  - rewrite pagination_settled. destruct (passesGuard st d).
    + right. left. reflexivity.
    + left. reflexivity.
  - rewrite pagination_sentinel. left. reflexivity.
Qed.

Lemma provenance (evs : list Event) :
  forall (st : State) (seen : list Nullish) (c : string),
    reachable st ->
    In (PageInfo.endCursor (pageInfo st)) seen ->
    In (fetcher_load c) (snd (run st evs)) ->
    In (str c) (seen ++ flat_map offered evs).
Proof.
  induction evs as [|ev evs IH]; intros st seen c R S Hin.
  - contradiction.
  - apply in_run_cons in Hin as [Hin | Hin].
    + destruct (call_inv _ _ R Hin) as (_ & _ & (c' & Hc & Hs) & _).
      rewrite Hs in Hin. destruct Hin as [Hin | []]. injection Hin as ->.
      apply in_or_app. left. now rewrite <- Hc.
    + simpl flat_map. rewrite app_assoc.
      apply (IH (next st ev)); [now apply reachable_step | | exact Hin].
      destruct (pageInfo_next st ev) as [E | E].
      * apply in_or_app. left. now rewrite <- E.
      * apply in_or_app. now right.
Qed.

(** X2. The component never makes up a cursor: every cursor it asks the
    fetcher for, at any point after mounting, is an end cursor that the
    loader data or a page delivered by the fetcher handed to it. *)
Theorem cursor_provenance
    (products : ProductConnection.t) (evs : list Event) (c : string) :
  In (fetcher_load c) (snd (run (mount products) evs)) ->
  In (str c)
     (PageInfo.endCursor (ProductConnection.pageInfo products)
      :: flat_map offered evs).
Proof.
  intros H.
  apply (provenance evs
           [PageInfo.endCursor (ProductConnection.pageInfo products)] c
           (reachable_mount products)); [now left | exact H].
Qed.

Lemma cursor_provenance_witness :
  let evs := [SentinelIntersection true;
              FetcherSettled (fetched ["b"] true (str "c2"));
              SentinelIntersection true] in
  In (str "c2") (str "c1" :: flat_map offered evs).
Proof.
  apply (@cursor_provenance (page ["a"] true (str "c1"))).
  right. left. reflexivity.
Defined.

Lemma edges_next_kept (st : State) (ev : Event) :
  keepsLoaderData ev = true ->
  exists more, edges (next st ev) = edges st ++ more.
Proof.
  intros K. destruct ev as [products | d | b]; try discriminate.
  - change (edges (next st (FetcherSettled d)))
      with (fst (fst (pagination (next st (FetcherSettled d))))).
    rewrite pagination_settled. destruct (passesGuard st d).
    + eexists. reflexivity.
    + exists []. simpl. now rewrite app_nil_r.
  - change (edges (next st (SentinelIntersection b)))
      with (fst (fst (pagination (next st (SentinelIntersection b))))).
    rewrite pagination_sentinel. exists []. simpl. now rewrite app_nil_r.
Qed.

Lemma edges_run_kept (evs : list Event) :
  forall st, forallb keepsLoaderData evs = true ->
    exists more, edges (fst (run st evs)) = edges st ++ more.
Proof.
  induction evs as [|ev evs IH]; intros st K.
  - exists []. simpl. now rewrite app_nil_r.
  - simpl in K. apply andb_true_iff in K as [K1 K2].
    rewrite run_cons. cbn [fst].
    destruct (edges_next_kept st ev K1) as [m1 E1].
    destruct (IH (next st ev) K2) as [m2 E2].
    exists (m1 ++ m2). rewrite E2, E1. now rewrite app_assoc.
Qed.

(** X3. As long as no new loader data arrives, what is shown stays shown:
    whatever pages the fetcher delivers and however the sentinel moves, the
    list keeps its items in place and only grows at the
    end, so the cards of the grid are kept, in order, before the new ones,
    and the notice of the empty store does not come back. *)
Theorem shown_cards_are_kept
    (toLowerCase : string -> string) (st : State) (evs : list Event) :
  forallb keepsLoaderData evs = true ->
  exists more,
    edges (fst (run st evs)) = edges st ++ more
    /\ forall cs,
         View.gallery (render toLowerCase st) = grid cs ->
         View.gallery (render toLowerCase (fst (run st evs)))
         = grid (cs ++ map (card toLowerCase) more).
Proof.
  intros K. destruct (edges_run_kept evs st K) as [more E].
  exists more. split; [exact E|].
  intros cs G. unfold render in *. cbn [View.gallery] in *.
  rewrite E. destruct (edges st) as [|e es]; [discriminate|].
  injection G as <-. cbn [app]. now rewrite <- map_app.
Qed.

Lemma shown_cards_are_kept_witness :
  let st := mount (page ["a"] true (str "c1")) in
  let evs := [SentinelIntersection true;
              FetcherSettled (fetched ["b"] false (str "c2"));
              SentinelIntersection true] in
  exists more,
    edges (fst (run st evs)) = edges st ++ more
    /\ forall cs,
         View.gallery (render (fun s => s) st) = grid cs ->
         View.gallery (render (fun s => s) (fst (run st evs)))
         = grid (cs ++ map (card (fun s => s)) more).
Proof.
  apply shown_cards_are_kept. reflexivity.
Defined.

(** X4. Delivering the same data twice in a row is delivering it once: the
    second run of the second effect finds the end cursor it has just
    recorded, or the one that made it drop the page the first time. *)
Theorem delivery_is_idempotent (st : State) (d : LoaderData.t) :
  next (next st (FetcherSettled d)) (FetcherSettled d)
  = next st (FetcherSettled d).
Proof.
  unfold next. simpl. unfold merge. simpl.
  destruct (strictEq (lastAppendedCursor st) _) eqn:E; simpl.
  - rewrite E. reflexivity.
  - rewrite strictEq_refl. reflexivity.
Qed.

(** ** Further properties of the loader *)

(** X5. The loader returns data exactly when the payload carries no error
    and has products, and then it returns those products as they are.
    Errors win over data: with a non-empty list of errors it throws status
    500 with the message of the first error, whatever [data] holds; without
    errors and without products it throws status 502.  It throws nothing
    else. *)
Theorem loader_outcomes (payload : ProductsQuery.t) :
  (forall d, loader_result payload = inr d
             <-> noErrors payload = true
                 /\ payload_products payload = Some (LoaderData.products d))
  /\ (forall e es, ProductsQuery.errors payload = Some (e :: es) ->
        loader_result payload = inl (Thrown.mk (GraphQLError.message e) 500))
  /\ (forall r, loader_result payload = inl r ->
        (Thrown.status r = 500 /\ noErrors payload = false)
        \/ (r = Thrown.mk "No data returned from Shopify" 502
            /\ noErrors payload = true
            /\ payload_products payload = None)).
Proof.
  split; [|split].
  - intros [P]. cbn [LoaderData.products].
    destruct (noErrors payload) eqn:N.
    + rewrite (loader_result_noErrors _ N).
      destruct (payload_products payload) as [Q|]; split.
      * intros H. injection H as ->. now split.
      * intros [_ H]. injection H as ->. reflexivity.
      * discriminate.
      * intros [_ H]. discriminate.
    + destruct (noErrors_false _ N) as (e & es & E).
      rewrite (loader_result_errors _ E). split; [discriminate|].
      intros [H _]. discriminate.
  - intros e es. apply loader_result_errors.
  - intros r H. destruct (noErrors payload) eqn:N.
    + right. rewrite (loader_result_noErrors _ N) in H.
      destruct (payload_products payload); [discriminate|].
      injection H as <-. repeat split.
    + left. destruct (noErrors_false _ N) as (e & es & E).
      rewrite (loader_result_errors _ E) in H. injection H as <-.
      now split.
Qed.

Lemma loader_outcomes_witness :
  let P := page ["a"] false null in
  let payload :=
    ProductsQuery.mk (Some (ProductsQuery.mkData (Some P)))
                     (Some [GraphQLError.mk "Throttled"; GraphQLError.mk "Other"]) in
  loader_result payload = inl (Thrown.mk "Throttled" 500).
Proof.
  destruct (loader_outcomes
              (ProductsQuery.mk
                 (Some (ProductsQuery.mkData (Some (page ["a"] false null))))
                 (Some [GraphQLError.mk "Throttled"; GraphQLError.mk "Other"])))
    as (_ & H & _).
  exact (H _ _ eq_refl).
Defined.

(** X7. The loader always asks for [PAGE_SIZE] products, and passes an
    [after] variable exactly when the search parameter is a non-empty
    string, unchanged.  So a fetch the component asks for between two
    events, which names the cursor recorded in the ref, makes the loader
    query the [PAGE_SIZE] products after that very cursor. *)
Theorem asked_cursor_reaches_query :
  (forall p,
     Variables.first (loader_variables p) = PAGE_SIZE
     /\ forall a, Variables.after (loader_variables p) = Some a
                  <-> p = Some a /\ a <> "")
  /\ (forall st ev c,
        reachable st ->
        In (fetcher_load c) (snd (step st ev)) ->
        lastAppendedCursor st = Some c
        /\ loader_variables (Some c) = Variables.mk PAGE_SIZE (Some c)).
Proof.
  split.
  - intros p. unfold loader_variables, orUndefined.
    destruct p as [x|]; [|split; [reflexivity|]; intros a; split;
                           [discriminate | intros [H _]; discriminate]].
    destruct (x =? "") eqn:E.
    + split; [reflexivity|]. intros a. split; [discriminate|].
      intros [H Hne]. injection H as ->.
      apply String.eqb_eq in E. contradiction.
    + rewrite E. simpl. split; [reflexivity|]. intros a. split.
      * intros H. injection H as ->. split; [reflexivity|].
        intros ->. discriminate.
      * intros [H _]. injection H as ->. reflexivity.
  - intros st ev c R Hin.
    destruct (call_inv _ _ R Hin) as (_ & E & (c' & Hc & Hs) & _).
    rewrite Hs in Hin. destruct Hin as [Hin | []]. injection Hin as ->.
    destruct (eligible_inv _ E) as (_ & _ & c'' & Hc'' & Hne).
    rewrite Hc in Hc''. injection Hc'' as <-.
    split.
    + now rewrite (reachable_cursor R), Hc.
    + unfold loader_variables, orUndefined.
      destruct (c =? "") eqn:D.
      * apply String.eqb_eq in D. contradiction.
      * rewrite D. reflexivity.
Qed.

Lemma asked_cursor_reaches_query_witness :
  lastAppendedCursor (mount (page ["a"] true (str "c1"))) = Some "c1"
  /\ loader_variables (Some "c1") = Variables.mk PAGE_SIZE (Some "c1").
Proof.
  destruct asked_cursor_reaches_query as [_ H].
  apply (H (mount (page ["a"] true (str "c1"))) (SentinelIntersection true) "c1").
  - apply reachable_mount.
  - left. reflexivity.
Defined.

(** ** Further properties of the cards and of the guard *)

(** X8. A card shows an image exactly when the chosen media image has a
    non-empty URL; its alternative text is the image's own, even when that
    is the empty string, and the title of the product when the image has
    none.  The chosen image is [featuredMedia.image] whenever that is
    present, whatever the preview holds: when it is present with an empty
    URL the card shows "No image" even though the preview has a usable
    image. *)
Theorem picture_of_product :
  (forall p src alt,
     picture p = img src alt
     <-> exists i,
           mediaImage p = Some i
           /\ Image.url i = src
           /\ src <> ""
           /\ alt = match Image.altText i with
                    | Some a => a
                    | None => ProductSummary.title p
                    end)
  /\ (forall p m i,
        ProductSummary.featuredMedia p = Some m ->
        FeaturedMedia.image m = Some i ->
        mediaImage p = Some i
        /\ (Image.url i = "" -> picture p = noImage))
  /\ (forall p m,
        ProductSummary.featuredMedia p = Some m ->
        FeaturedMedia.image m = None ->
        mediaImage p = match FeaturedMedia.preview m with
                       | Some q => q
                       | None => None
                       end).
Proof.
  split; [|split].
  - intros p src alt. unfold picture. split.
    + destruct (mediaImage p) as [i|]; [|discriminate].
      destruct (Image.url i =? "") eqn:E; simpl; [discriminate|].
      intros H. injection H as <- <-. exists i. repeat split.
      intros U. rewrite U in E. discriminate.
    + intros (i & M & U & Hne & A). rewrite M.
      destruct (Image.url i =? "") eqn:E; simpl.
      * apply String.eqb_eq in E. congruence.
      * now rewrite U, A.
  - intros p m i F I. unfold picture, mediaImage. rewrite F, I.
    split; [reflexivity|]. intros U. now rewrite U.
  - intros p m F I. unfold mediaImage. now rewrite F, I.
Qed.

Lemma picture_of_product_witness :
  let hidden := Image.mk "" (Some "front") in
  let usable := Image.mk "https://cdn.example/p.png" None in
  let p := ProductSummary.mk "gid/1" "Mug" "ACTIVE"
             (Some (FeaturedMedia.mk (Some (Some usable)) (Some hidden))) in
  mediaImage p = Some hidden /\ picture p = noImage.
Proof.
  destruct picture_of_product as (_ & H & _).
  destruct (H (ProductSummary.mk "gid/1" "Mug" "ACTIVE"
                 (Some (FeaturedMedia.mk
                          (Some (Some (Image.mk "https://cdn.example/p.png" None)))
                          (Some (Image.mk "" (Some "front"))))))
              _ _ eq_refl eq_refl) as [H1 H2].
  split; [exact H1 | exact (H2 eq_refl)].
Defined.

(** X9. A page that ends at the very cursor it was fetched after is dropped:
    none of its items is shown, the page information and the recorded cursor
    stay, and the component is ready to ask again, so the next notification
    of the sentinel asks for the same cursor once more. *)
Theorem page_ending_where_it_began (st : State) (c : string) (d : LoaderData.t) :
  reachable st ->
  snd (step st (SentinelIntersection true)) = [fetcher_load c] ->
  orNull (PageInfo.endCursor (ProductConnection.pageInfo (LoaderData.products d)))
    = Some c ->
  pagination (fst (run st [SentinelIntersection true; FetcherSettled d]))
    = pagination st
  /\ snd (run st [SentinelIntersection true; FetcherSettled d;
                  SentinelIntersection true])
     = [fetcher_load c; fetcher_load c].
Proof.
  intros R Hcall Hd.
  assert (Hin : In (fetcher_load c) (snd (step st (SentinelIntersection true)))).
  { rewrite Hcall. now left. }
  destruct (call_inv _ _ R Hin) as (_ & E & (c' & Hc & Hs) & _).
  rewrite Hs in Hcall. injection Hcall as ->.
  assert (S1 := step_sentinel true R). rewrite E, Hc in S1. cbn [andb] in S1.
  set (st1 := bind (withFetcher
                (Fetcher.mk loading (Fetcher.data (fetcher st))) st)) in *.
  assert (N1 : next st (SentinelIntersection true) = st1).
  { unfold next. now rewrite S1. }
  assert (R1 : reachable st1).
  { rewrite <- N1. now apply reachable_step. }
  pose proof (reachable_step (FetcherSettled d) R1) as R2.
  assert (L : lastAppendedCursor st1 = Some c).
  { change (lastAppendedCursor st1) with (lastAppendedCursor st).
    now rewrite (reachable_cursor R), Hc. }
  assert (P2 : pagination (next st1 (FetcherSettled d)) = pagination st).
  { rewrite pagination_settled. unfold passesGuard.
    rewrite L, Hd, strictEq_refl. reflexivity. }
  assert (E2 : eligible (next st1 (FetcherSettled d)) = true).
  { unfold eligible. rewrite fetcher_settled. cbn [Fetcher.state isIdle andb].
    change (pageInfo (next st1 (FetcherSettled d)))
      with (snd (fst (pagination (next st1 (FetcherSettled d))))).
    rewrite P2. cbn [pagination fst snd].
    destruct (eligible_inv _ E) as (_ & M & c'' & Hc'' & Hne).
    rewrite M, Hc''. simpl.
    destruct (c'' =? "") eqn:D; [|reflexivity].
    apply String.eqb_eq in D. contradiction. }
  assert (S3 := step_sentinel true R2). rewrite E2 in S3. cbn [andb] in S3.
  change (pageInfo (next st1 (FetcherSettled d)))
    with (snd (fst (pagination (next st1 (FetcherSettled d))))) in S3.
  rewrite P2 in S3. cbn [pagination fst snd] in S3. rewrite Hc in S3.
  split.
  - rewrite !run_cons. cbn [fst run]. now rewrite N1.
  - rewrite !run_cons. cbn [fst snd run]. rewrite N1, S1, S3. reflexivity.
Qed.

Lemma page_ending_where_it_began_witness :
  let st := mount (page ["a"] true (str "c1")) in
  let d := fetched ["b"; "c"] true (str "c1") in
  pagination (fst (run st [SentinelIntersection true; FetcherSettled d]))
    = pagination st
  /\ snd (run st [SentinelIntersection true; FetcherSettled d;
                  SentinelIntersection true])
     = [fetcher_load "c1"; fetcher_load "c1"].
Proof.
  apply page_ending_where_it_began; [apply reachable_mount | reflexivity | reflexivity].
Defined.

(** X10. The guard looks at the last appended page only: when a page is
    delivered, then another that ends at a different cursor, then the first
    again, all three are appended and the items of the first are listed
    twice. *)
Theorem guard_sees_only_last_page (st : State) (d1 d2 : LoaderData.t) :
  let cur d := orNull (PageInfo.endCursor
                         (ProductConnection.pageInfo (LoaderData.products d))) in
  passesGuard st d1 = true ->
  cur d1 <> cur d2 ->
  edges (fst (run st [FetcherSettled d1; FetcherSettled d2; FetcherSettled d1]))
  = edges st
    ++ ProductConnection.edges (LoaderData.products d1)
    ++ ProductConnection.edges (LoaderData.products d2)
    ++ ProductConnection.edges (LoaderData.products d1).
Proof.
  intros cur G1 D.
  assert (N : forall a b, a <> b -> strictEq a b = false).
  { intros a b H. destruct (strictEq a b) eqn:E; [|reflexivity].
    apply strictEq_true in E. contradiction. }
  set (s1 := next st (FetcherSettled d1)).
  set (s2 := next s1 (FetcherSettled d2)).
  assert (P1 : pagination s1
               = (edges st ++ ProductConnection.edges (LoaderData.products d1),
                  ProductConnection.pageInfo (LoaderData.products d1),
                  cur d1)).
  { unfold s1. now rewrite pagination_settled, G1. }
  assert (G2 : passesGuard s1 d2 = true).
  { unfold passesGuard.
    change (lastAppendedCursor s1) with (snd (pagination s1)).
    rewrite P1. cbn [snd]. fold (cur d2). now rewrite (N _ _ D). }
  assert (P2 : pagination s2
               = (edges s1 ++ ProductConnection.edges (LoaderData.products d2),
                  ProductConnection.pageInfo (LoaderData.products d2),
                  cur d2)).
  { unfold s2. now rewrite pagination_settled, G2. }
  assert (G3 : passesGuard s2 d1 = true).
  { unfold passesGuard.
    change (lastAppendedCursor s2) with (snd (pagination s2)).
    rewrite P2. cbn [snd]. fold (cur d1).
    rewrite (N (cur d2) (cur d1)); [reflexivity | congruence]. }
  rewrite !run_cons. cbn [fst run]. fold s1. fold s2.
  change (edges (next s2 (FetcherSettled d1)))
    with (fst (fst (pagination (next s2 (FetcherSettled d1))))).
  rewrite pagination_settled, G3. cbn [fst].
  change (edges s2) with (fst (fst (pagination s2))). rewrite P2. cbn [fst].
  change (edges s1) with (fst (fst (pagination s1))). rewrite P1. cbn [fst].
  now rewrite <- !app_assoc.
Qed.

Lemma guard_sees_only_last_page_witness :
  let st := mount (page ["a"] true (str "c1")) in
  let d1 := fetched ["b"] true (str "c2") in
  let d2 := fetched ["c"] true (str "c3") in
  ids (edges (fst (run st [FetcherSettled d1; FetcherSettled d2; FetcherSettled d1])))
  = ["a"; "b"; "c"; "b"].
Proof.
  change (ids (edges (fst (run (mount (page ["a"] true (str "c1")))
                [FetcherSettled (fetched ["b"] true (str "c2"));
                 FetcherSettled (fetched ["c"] true (str "c3"));
                 FetcherSettled (fetched ["b"] true (str "c2"))])))
          = ["a"; "b"; "c"; "b"]).
  rewrite (@guard_sees_only_last_page
             (mount (page ["a"] true (str "c1")))
             (fetched ["b"] true (str "c2"))
             (fetched ["c"] true (str "c3")) eq_refl).
  - reflexivity.
  - discriminate.
Defined.
